(** * Conv2D: a custom Keras convolution layer (src/layers/Conv2D.py)

    The layer object of the source is embedded as a record of its attributes,
    its methods as functions that pass the object explicitly and return
    either a value or the Python exception that is raised.  The primitives
    the layer borrows from its host framework (the tensor backend, the
    activation registry, the length utility of [conv_utils]) are embedded
    next to it, each under the name it has in the host. *)

From Stdlib Require Import ZArith Lia.
From stdpp Require Import gmap strings list fin_maps.

Local Open Scope Z_scope.

(** ** Python values: exceptions, indexing, floor division *)

Inductive Exn :=
| AssertionError
| ZeroDivisionError
| IndexError
| TypeError
| ValueError.

Inductive Result (A : Type) :=
| Ok (a : A)
| Raise (e : Exn).

Arguments Ok {A} a.
Arguments Raise {A} e.

#[global] Instance Result_ret : MRet Result := fun A a => Ok a.
#[global] Instance Result_bind : MBind Result := fun A B f m =>
  match m with
  | Ok a => f a
  | Raise e => Raise e
  end.

Definition is_ok {A} (r : Result A) : bool :=
  match r with Ok _ => true | Raise _ => false end.

(** [t[i]] on a tuple or list: a negative index counts from the end. *)
Definition py_index {A} (t : list A) (i : Z) : Result A :=
  let n := Z.of_nat (length t) in
  let j := if i <? 0 then i + n else i in
  if (j <? 0) || (n <=? j) then Raise IndexError
  else match t !! Z.to_nat j with
       | Some a => Ok a
       | None => Raise IndexError
       end.

(** [a // b] on integers: rounds towards minus infinity. *)
Definition py_floordiv (a b : Z) : Result Z :=
  if b =? 0 then Raise ZeroDivisionError else Ok (a / b).

(** Ceiling of [a / b], the way the specification writes the extent under
    same-padding. *)
Definition ceil_div (a b : Z) : Z := - ((- a) / b).

(** ** keras.utils.conv_utils *)

Module conv_utils.

(** [conv_output_length(input_length, filter_size, padding, stride, dilation)],
    the host utility [compute_output_shape] calls once per spatial axis.
    An unknown extent ([None]) is passed through. *)
Definition conv_output_length (input_length : option Z) (filter_size : Z)
    (padding : string) (stride dilation : Z) : Result (option Z) :=
  match input_length with
  | None => Ok None
  | Some input_length =>
    if negb (bool_decide (padding ∈ ["same"; "valid"; "full"; "causal"]))
    then Raise AssertionError
    else
      let dilated_filter_size := filter_size + (filter_size - 1) * (dilation - 1) in
      let output_length :=
        if bool_decide (padding ∈ ["same"; "causal"]) then input_length
        else if bool_decide (padding = "valid") then input_length - dilated_filter_size + 1
        else (* "full" *) input_length + dilated_filter_size - 1 in
      r ← py_floordiv (output_length + stride - 1) stride;
      Ok (Some r)
  end.

End conv_utils.

(** ** Tensors and the numeric backend *)

(** A tensor is its shape and its elements, read by a full index. *)
Record Tensor (R : Type) := mkTensor {
  shape : list Z;
  item : list Z → R
}.

Arguments mkTensor {R} shape item.
Arguments shape {R} t.
Arguments item {R} t idx.

(** What the layer consumes from its host: the arithmetic of the element
    type, the values the random initializer draws for a shape, and the
    registry of named activation functions. *)
Class Backend (R : Type) := {
  f_zero : R;
  f_add : R → R → R;
  f_mul : R → R → R;
  glorot_uniform_draw : list Z → list Z → R;
  activation_by_name : string → option (Tensor R → Tensor R)
}.

(** The process-wide setting read by [K.image_data_format()]. *)
Inductive DataFormat := channels_first | channels_last.

Inductive TFPadding := SAME | VALID.

Section backend.
Context {R : Type} `{!Backend R}.

Definition zrange (n : Z) : list Z := Z.of_nat <$> seq 0 (Z.to_nat n).

(** Sum of [f i] for [0 <= i < n]. *)
Definition sum_over (n : Z) (f : Z → R) : R :=
  foldr (fun i acc => f_add (f i) acc) f_zero (zrange n).

Definition zeros (shp : list Z) : Tensor R := mkTensor shp (fun _ => f_zero).

(** [_preprocess_padding]: the backend accepts the lower-case names only. *)
Definition preprocess_padding (padding : string) : Result TFPadding :=
  if bool_decide (padding = "same") then Ok SAME
  else if bool_decide (padding = "valid") then Ok VALID
  else Raise ValueError.

(** Output extent of one spatial axis and the zero padding put before it.
    With no padding a window that does not fit is refused (negative
    dimension size). *)
Definition windowed_output_size (p : TFPadding) (n k s d : Z) : Result (Z * Z) :=
  if (s <=? 0) || (d <=? 0) then Raise ValueError
  else
    let eff := (k - 1) * d + 1 in
    match p with
    | VALID =>
      if n <? eff then Raise ValueError else Ok ((n - eff + s) / s, 0)
    | SAME =>
      let out := (n + s - 1) / s in
      let needed := Z.max 0 ((out - 1) * s + eff - n) in
      Ok (out, needed / 2)
    end.

(** Element of a batch-height-width-channel tensor, zero outside the
    spatial extent (the padding). *)
Definition read_padded (x : Tensor R) (h w : Z) (n i j c : Z) : R :=
  if (0 <=? i) && (i <? h) && (0 <=? j) && (j <? w) then item x [n; i; j; c]
  else f_zero.

(** The convolution proper, on a channels-last input and a
    height-width-in-out kernel: cross-correlation, no kernel flip. *)
Definition nn_convolution (x kernel : Tensor R) (strides : Z * Z)
    (p : TFPadding) (dilation_rate : Z * Z) : Result (Tensor R) :=
  match shape x, shape kernel with
  | [b; h; w; c], [kh; kw; ci; f] =>
    if negb (c =? ci) then Raise ValueError
    else
      '(oh, pt) ← windowed_output_size p h kh strides.1 dilation_rate.1;
      '(ow, pl) ← windowed_output_size p w kw strides.2 dilation_rate.2;
      Ok (mkTensor [b; oh; ow; f] (fun idx =>
        match idx with
        | [n; i; j; o] =>
          sum_over kh (fun di =>
          sum_over kw (fun dj =>
          sum_over ci (fun ch =>
            f_mul
              (read_padded x h w n
                 (i * strides.1 + di * dilation_rate.1 - pt)
                 (j * strides.2 + dj * dilation_rate.2 - pl) ch)
              (item kernel [di; dj; ch; o]))))
        | _ => f_zero
        end))
  | _, _ => Raise ValueError
  end.

(** [tf.transpose(x, (0, 2, 3, 1))] and [tf.transpose(x, (0, 3, 1, 2))]. *)
Definition nchw_to_nhwc (x : Tensor R) : Result (Tensor R) :=
  match shape x with
  | [n; c; h; w] =>
    Ok (mkTensor [n; h; w; c] (fun idx =>
      match idx with
      | [a; i; j; k] => item x [a; k; i; j]
      | _ => f_zero
      end))
  | _ => Raise ValueError
  end.

Definition nhwc_to_nchw (x : Tensor R) : Result (Tensor R) :=
  match shape x with
  | [n; h; w; c] =>
    Ok (mkTensor [n; c; h; w] (fun idx =>
      match idx with
      | [a; k; i; j] => item x [a; i; j; k]
      | _ => f_zero
      end))
  | _ => Raise ValueError
  end.

(** [K.conv2d(x, kernel, strides=(1, 1), padding='valid', data_format=None,
    dilation_rate=(1, 1))]; [data_format=None] takes the process-wide
    setting, passed here as [fmt]. *)
Definition conv2d (fmt : DataFormat) (x kernel : Tensor R) (strides : Z * Z)
    (padding : string) (dilation_rate : Z * Z) : Result (Tensor R) :=
  match fmt with
  | channels_last =>
    p ← preprocess_padding padding;
    nn_convolution x kernel strides p dilation_rate
  | channels_first =>
    x' ← nchw_to_nhwc x;
    p ← preprocess_padding padding;
    y ← nn_convolution x' kernel strides p dilation_rate;
    nhwc_to_nchw y
  end.

(** [K.bias_add(x, bias)] for a rank-4 [x] and the rank-1 bias the layer
    owns: the bias is added along the channel axis. *)
Definition bias_add (fmt : DataFormat) (x bias : Tensor R) : Result (Tensor R) :=
  match shape bias, shape x, fmt with
  | [nb], [_; _; _; c], channels_last =>
    if negb (nb =? c) then Raise ValueError
    else Ok (mkTensor (shape x) (fun idx =>
           match idx with
           | [_; _; _; o] => f_add (item x idx) (item bias [o])
           | _ => f_zero
           end))
  | [nb], [_; c; _; _], channels_first =>
    if negb (nb =? c) then Raise ValueError
    else Ok (mkTensor (shape x) (fun idx =>
           match idx with
           | [_; o; _; _] => f_add (item x idx) (item bias [o])
           | _ => f_zero
           end))
  | _, _, _ => Raise ValueError
  end.

End backend.

(** ** The layer *)

Inductive Initializer := Zeros | GlorotUniform.

Section layer.
Context {R : Type} `{!Backend R}.

Abbreviation Activation := (Tensor R → Tensor R).

(** A value stored in a configuration dictionary. *)
Inductive ConfigValue :=
| VNone
| VInt (n : Z)
| VStr (s : string)
| VTuple (a b : Z)
| VCallable (f : Activation).

(** A weight registered with the base layer by [add_weight]. *)
Record Weight := mkWeight {
  var_name : string;
  var_dtype : option string;
  var_initializer : Initializer;
  var_trainable : bool;
  var_value : Tensor R
}.

(** The attributes of a [Conv2D] object; the last three belong to the
    base [Layer]. *)
Record Conv2D := mkConv2D {
  filters : Z;
  bias : option Weight;
  kernel_size : Z * Z;
  kernel : option Weight;
  strides : Z * Z;
  padding : string;
  activation : option Activation;
  dilation_rate : Z * Z;
  batch_size : Z;
  channel_axis : Z;
  base_config : gmap string ConfigValue;
  weights : list Weight;
  built : bool
}.

(** The [activation] argument: [None], a name, or a callable. *)
Inductive ActivationArg :=
| ArgNone
| ArgName (s : string)
| ArgCallable (f : Activation).

(** [activations.get]: a name is looked up in the registry, a callable
    is returned as it is. *)
Definition activations_get (identifier : ActivationArg) : Result Activation :=
  match identifier with
  | ArgNone => Ok (fun x => x)
  | ArgName s =>
    match activation_by_name s with
    | Some f => Ok f
    | None => Raise ValueError
    end
  | ArgCallable f => Ok f
  end.

(** The arguments of the constructor; [None] is an argument left out,
    which takes the default of the signature. *)
Record Args := mkArgs {
  arg_filters : option Z;
  arg_kernel_size : option (Z * Z);
  arg_strides : option (Z * Z);
  arg_padding : option string;
  arg_activation : option ActivationArg;
  arg_dilation_rate : option (Z * Z);
  arg_batch_size : option Z;
  arg_kwargs : gmap string ConfigValue
}.

Definition no_args : Args :=
  mkArgs None None None None None None None ∅.

(** [Conv2D.__init__] *)
Definition __init__ (fmt : DataFormat) (a : Args) : Result Conv2D :=
  let filters := default 32 (arg_filters a) in
  let kernel_size := default (3, 3) (arg_kernel_size a) in
  let strides := default (1, 1) (arg_strides a) in
  let padding := default "VALID" (arg_padding a) in
  let activation := default (ArgName "relu") (arg_activation a) in
  let dilation_rate := default (1, 1) (arg_dilation_rate a) in
  let batch_size := default 1 (arg_batch_size a) in
  act ← match activation with
        | ArgNone => Ok None
        | _ => f ← activations_get activation; Ok (Some f)
        end;
  Ok {| filters := filters;
        bias := None;
        kernel_size := kernel_size;
        kernel := None;
        strides := strides;
        padding := padding;
        activation := act;
        dilation_rate := dilation_rate;
        batch_size := batch_size;
        channel_axis := match fmt with channels_first => 0 | channels_last => -1 end;
        base_config := arg_kwargs a;
        weights := [];
        built := false |}.

(** [Layer.add_weight]: the variable is created from its initializer and
    registered; a shape with an unknown or negative extent is refused. *)
Definition concrete_shape (shp : list (option Z)) : Result (list Z) :=
  match mapM (fun d => match d with
                       | Some n => if n <? 0 then None else Some n
                       | None => None
                       end) shp with
  | Some s => Ok s
  | None => Raise ValueError
  end.

Definition initial_value (i : Initializer) (shp : list Z) : Tensor R :=
  match i with
  | Zeros => zeros shp
  | GlorotUniform => mkTensor shp (glorot_uniform_draw shp)
  end.

Definition with_weight (l : Conv2D) (w : Weight) : Conv2D :=
  mkConv2D (filters l) (bias l) (kernel_size l) (kernel l) (strides l)
    (padding l) (activation l) (dilation_rate l) (batch_size l)
    (channel_axis l) (base_config l) (weights l ++ [w]) (built l).

Definition add_weight (l : Conv2D) (name : string) (shp : list (option Z))
    (dtype : option string) (initializer : Initializer) (trainable : bool)
    : Result (Weight * Conv2D) :=
  s ← concrete_shape shp;
  let w := mkWeight name dtype initializer trainable (initial_value initializer s) in
  Ok (w, with_weight l w).

Definition set_bias (l : Conv2D) (w : Weight) : Conv2D :=
  mkConv2D (filters l) (Some w) (kernel_size l) (kernel l) (strides l)
    (padding l) (activation l) (dilation_rate l) (batch_size l)
    (channel_axis l) (base_config l) (weights l) (built l).

Definition set_kernel (l : Conv2D) (w : Weight) : Conv2D :=
  mkConv2D (filters l) (bias l) (kernel_size l) (Some w) (strides l)
    (padding l) (activation l) (dilation_rate l) (batch_size l)
    (channel_axis l) (base_config l) (weights l) (built l).

(** [Layer.build]: marks the layer as built. *)
Definition Layer_build (l : Conv2D) : Conv2D :=
  mkConv2D (filters l) (bias l) (kernel_size l) (kernel l) (strides l)
    (padding l) (activation l) (dilation_rate l) (batch_size l)
    (channel_axis l) (base_config l) (weights l) true.

(** [Conv2D.build] *)
Definition build (l : Conv2D) (input_shape : list (option Z)) : Result Conv2D :=
  c ← py_index input_shape (channel_axis l);
  let kernel_shape :=
    [Some (kernel_size l).1; Some (kernel_size l).2; c; Some (filters l)] in
  '(b, l) ← add_weight l "conv_bias" [Some (filters l)] (Some "float32") Zeros true;
  let l := set_bias l b in
  '(k, l) ← add_weight l "kernel" kernel_shape None GlorotUniform true;
  let l := set_kernel l k in
  Ok (Layer_build l).

(** [Conv2D.call]: the backend is called with the kernel alone, so with
    its default strides, padding and dilation. *)
Definition call (fmt : DataFormat) (l : Conv2D) (x : Tensor R) : Result (Tensor R) :=
  match kernel l with
  | None => Raise ValueError
  | Some k =>
    y ← conv2d fmt x (var_value k) (1, 1) "valid" (1, 1);
    match bias l with
    | None => Raise ValueError
    | Some b =>
      y ← bias_add fmt y (var_value b);
      match activation l with
      | Some f => Ok (f y)
      | None => Ok y
      end
    end
  end.

(** What [call] hands to the activation: the backend convolution of the
    input with the kernel, as [call] invokes it, plus the bias. *)
Definition convolution_plus_bias (fmt : DataFormat) (l : Conv2D) (x : Tensor R)
    : Result (Tensor R) :=
  match kernel l with
  | None => Raise ValueError
  | Some k =>
    y ← conv2d fmt x (var_value k) (1, 1) "valid" (1, 1);
    match bias l with
    | None => Raise ValueError
    | Some b => bias_add fmt y (var_value b)
    end
  end.

(** [Conv2D.compute_output_shape] *)
Definition compute_output_shape (l : Conv2D) (input_shape : list (option Z))
    : Result (list (option Z)) :=
  batch_size ← py_index input_shape 0;
  d1 ← py_index input_shape 1;
  convX ← conv_utils.conv_output_length d1 (kernel_size l).1 (padding l)
            (strides l).1 (dilation_rate l).1;
  d2 ← py_index input_shape 2;
  convY ← conv_utils.conv_output_length d2 (kernel_size l).2 (padding l)
            (strides l).2 (dilation_rate l).2;
  Ok [batch_size; convX; convY; Some (filters l)].

(** [Conv2D.get_config]: the base configuration updated with the
    attributes of the layer, the activation as the attribute holds it. *)
Definition get_config (l : Conv2D) : gmap string ConfigValue :=
  let config := base_config l in
  <["batch_size" := VInt (batch_size l)]>
  (<["dilation_rate" := VTuple (dilation_rate l).1 (dilation_rate l).2]>
  (<["activation" := match activation l with
                     | Some f => VCallable f
                     | None => VNone
                     end]>
  (<["padding" := VStr (padding l)]>
  (<["strides" := VTuple (strides l).1 (strides l).2]>
  (<["kernel_size" := VTuple (kernel_size l).1 (kernel_size l).2]>
  (<["filters" := VInt (filters l)]> config)))))).

(** Reading a keyword argument of a given kind out of a dictionary. *)
Definition kw {A} (proj : ConfigValue → option A) (o : option ConfigValue)
    : Result (option A) :=
  match o with
  | None => Ok None
  | Some v =>
    match proj v with
    | Some a => Ok (Some a)
    | None => Raise TypeError
    end
  end.

Definition as_int (v : ConfigValue) : option Z :=
  match v with VInt n => Some n | _ => None end.
Definition as_pair (v : ConfigValue) : option (Z * Z) :=
  match v with VTuple a b => Some (a, b) | _ => None end.
Definition as_str (v : ConfigValue) : option string :=
  match v with VStr s => Some s | _ => None end.
Definition as_activation (v : ConfigValue) : option ActivationArg :=
  match v with
  | VNone => Some ArgNone
  | VStr s => Some (ArgName s)
  | VCallable f => Some (ArgCallable f)
  | _ => None
  end.

Definition constructor_keywords : list string :=
  ["filters"; "kernel_size"; "strides"; "padding"; "activation";
   "dilation_rate"; "batch_size"].

(** [Layer.from_config], inherited: the class is called with the entries
    of the dictionary as keyword arguments. *)
Definition from_config (fmt : DataFormat) (config : gmap string ConfigValue)
    : Result Conv2D :=
  f ← kw as_int (config !! "filters");
  ks ← kw as_pair (config !! "kernel_size");
  st ← kw as_pair (config !! "strides");
  pd ← kw as_str (config !! "padding");
  ac ← kw as_activation (config !! "activation");
  dr ← kw as_pair (config !! "dilation_rate");
  bs ← kw as_int (config !! "batch_size");
  __init__ fmt (mkArgs f ks st pd ac dr bs (foldr delete config constructor_keywords)).

End layer.

(** ** An integer backend, for running the layer on concrete inputs *)

Definition tmap {R} (f : R → R) (x : Tensor R) : Tensor R :=
  mkTensor (shape x) (fun idx => f (item x idx)).

Definition relu (x : Tensor Z) : Tensor Z := tmap (Z.max 0) x.

#[global] Instance ZBackend : Backend Z := {|
  f_zero := 0;
  f_add := Z.add;
  f_mul := Z.mul;
  glorot_uniform_draw := fun _ idx => foldr Z.add 0 idx mod 3 - 1;
  activation_by_name := fun s =>
    if bool_decide (s = "relu") then Some relu
    else if bool_decide (s = "linear") then Some (fun x => x)
    else None
|}.

(** Constructor, then [build] on the input shape: what the host does before
    the first [call]. *)
Definition built_layer (fmt : DataFormat) (a : Args (R := Z))
    (input_shape : list (option Z)) : Result (Conv2D (R := Z)) :=
  l ← __init__ fmt a;
  build l input_shape.

Definition constant_input (shp : list Z) (v : Z) : Tensor Z :=
  mkTensor shp (fun _ => v).

Definition output_shape {R} (r : Result (Tensor R)) : Result (list (option Z)) :=
  t ← r; Ok (Some <$> shape t).

(** The configurations and inputs the layer is run on below. *)
Definition image_shape : list (option Z) := [Some 1; Some 224; Some 224; Some 3].

Definition scenario (padding : string) (strides : Z * Z) : Args (R := Z) :=
  mkArgs (Some 32) (Some (3, 3)) (Some strides) (Some padding) None
    (Some (1, 1)) None ∅.


Definition pointwise_args (activation : option (ActivationArg (R := Z)))
    : Args (R := Z) :=
  mkArgs (Some 1) (Some (1, 1)) None (Some "valid") activation None None ∅.


(** * Properties *)

(** Decides the membership and equality tests on string literals. *)
Ltac decide_literals :=
  repeat match goal with
  | |- context [bool_decide ?P] =>
    let b := eval vm_compute in (bool_decide P) in
    change (bool_decide P) with b
  end;
  cbn [negb].

Lemma ceil_div_spec a b :
  0 < b → (ceil_div a b - 1) * b < a ∧ a ≤ ceil_div a b * b.
Proof.
  intros Hb. unfold ceil_div.
  pose proof (Z.div_mod (- a) b ltac:(lia)) as Hdm.
  pose proof (Z.mod_pos_bound (- a) b Hb) as Hm.
  nia.
Qed.

Lemma ceil_div_round_up a b : 0 < b → (a + b - 1) / b = ceil_div a b.
Proof.
  intros Hb. destruct (ceil_div_spec a b Hb) as [Hlo Hhi].
  symmetry. apply Z.div_unique with (r := a + b - 1 - b * ceil_div a b); lia.
Qed.

Lemma py_index_0 {A} (x : A) (t : list A) : py_index (x :: t) 0 = Ok x.
Proof.
  unfold py_index. cbn [Z.ltb Z.compare length].
  destruct (Z.leb_spec (Z.of_nat (S (length t))) 0); [lia | reflexivity].
Qed.

Lemma py_index_1 {A} (x y : A) (t : list A) : py_index (x :: y :: t) 1 = Ok y.
Proof.
  unfold py_index. cbn [Z.ltb Z.compare length].
  destruct (Z.leb_spec (Z.of_nat (S (S (length t)))) 1); [lia | reflexivity].
Qed.

Lemma py_index_2 {A} (x y z : A) (t : list A) :
  py_index (x :: y :: z :: t) 2 = Ok z.
Proof.
  unfold py_index. cbn [Z.ltb Z.compare length].
  destruct (Z.leb_spec (Z.of_nat (S (S (S (length t))))) 2); [lia | reflexivity].
Qed.

Lemma conv_output_length_valid n k s d :
  s ≠ 0 →
  conv_utils.conv_output_length (Some n) k "valid" s d
  = Ok (Some ((n - (k - 1) * d - 1) / s + 1)).
Proof.
  intros Hs. unfold conv_utils.conv_output_length, py_floordiv.
  decide_literals.
  destruct (Z.eqb_spec s 0) as [|_]; [done|]. cbn.
  do 2 f_equal.
  replace (n - (k + (k - 1) * (d - 1)) + 1 + s - 1)
    with ((n - (k - 1) * d - 1) + 1 * s) by lia.
  by rewrite Z.div_add.
Qed.

Lemma conv_output_length_same n k s d :
  0 < s →
  conv_utils.conv_output_length (Some n) k "same" s d = Ok (Some (ceil_div n s)).
Proof.
  intros Hs. unfold conv_utils.conv_output_length, py_floordiv.
  decide_literals.
  destruct (Z.eqb_spec s 0) as [|_]; [lia|]. cbn.
  by rewrite ceil_div_round_up.
Qed.

(** The length utility refuses every padding name outside its four
    lower-case ones, the upper-case default of the constructor included. *)
Lemma conv_output_length_unknown_padding n k p s d :
  p ∉ ["same"; "valid"; "full"; "causal"] →
  conv_utils.conv_output_length (Some n) k p s d = Raise AssertionError.
Proof.
  intros Hp. unfold conv_utils.conv_output_length.
  by rewrite bool_decide_eq_false_2.
Qed.

Section properties.
Context {R : Type} `{!Backend R}.
Implicit Types (l : Conv2D (R := R)) (x : Tensor R).

(** Under valid-padding, whatever the signs, the two spatial extents are
    those of the utility's formula. *)
Lemma compute_output_shape_valid_formula l batch h w rest :
  padding l = "valid" →
  (strides l).1 ≠ 0 → (strides l).2 ≠ 0 →
  compute_output_shape l (batch :: Some h :: Some w :: rest)
  = Ok [batch;
        Some ((h - ((kernel_size l).1 - 1) * (dilation_rate l).1 - 1) / (strides l).1 + 1);
        Some ((w - ((kernel_size l).2 - 1) * (dilation_rate l).2 - 1) / (strides l).2 + 1);
        Some (filters l)].
Proof.
  intros Hp Hs1 Hs2. unfold compute_output_shape.
  rewrite py_index_0, py_index_1, py_index_2, Hp. cbn [mbind Result_bind].
  rewrite !conv_output_length_valid by done. reflexivity.
Qed.

(** C2: under valid-padding, with positive input extent, kernel extent,
    stride and dilation on both spatial axes, [compute_output_shape]
    returns floor((in - (k-1)*dilation - 1) / stride) + 1 on each of them,
    the batch entry unchanged and [filters] last.  Valid-padding is the
    name ["valid"], the one the length utility knows. *)
Theorem compute_output_shape_valid l batch h w rest :
  padding l = "valid" →
  0 < h → 0 < w →
  0 < (kernel_size l).1 → 0 < (kernel_size l).2 →
  0 < (strides l).1 → 0 < (strides l).2 →
  0 < (dilation_rate l).1 → 0 < (dilation_rate l).2 →
  compute_output_shape l (batch :: Some h :: Some w :: rest)
  = Ok [batch;
        Some ((h - ((kernel_size l).1 - 1) * (dilation_rate l).1 - 1) / (strides l).1 + 1);
        Some ((w - ((kernel_size l).2 - 1) * (dilation_rate l).2 - 1) / (strides l).2 + 1);
        Some (filters l)].
Proof.
  intros Hp _ _ _ _ Hs1 Hs2 _ _.
  apply compute_output_shape_valid_formula; [done | lia | lia].
Qed.

(** C3: under same-padding, with positive input extent and stride on both
    spatial axes, [compute_output_shape] returns ceil(in / stride) on each
    of them, the least integer whose product with the stride reaches the
    input extent; kernel size and dilation rate do not enter the result.
    Same-padding is the name ["same"] of the length utility. *)
Theorem compute_output_shape_same l batch h w rest :
  padding l = "same" →
  0 < h → 0 < w →
  0 < (strides l).1 → 0 < (strides l).2 →
  compute_output_shape l (batch :: Some h :: Some w :: rest)
  = Ok [batch; Some (ceil_div h (strides l).1); Some (ceil_div w (strides l).2);
        Some (filters l)]
  ∧ (ceil_div h (strides l).1 - 1) * (strides l).1 < h ≤ ceil_div h (strides l).1 * (strides l).1
  ∧ (ceil_div w (strides l).2 - 1) * (strides l).2 < w ≤ ceil_div w (strides l).2 * (strides l).2.
Proof.
  intros Hp _ _ Hs1 Hs2. split; [|split; by apply ceil_div_spec].
  unfold compute_output_shape.
  rewrite py_index_0, py_index_1, py_index_2, Hp. cbn [mbind Result_bind].
  rewrite !conv_output_length_same by done. reflexivity.
Qed.

(** X6: with a padding name the length utility does not know, the
    upper-case default of the constructor among them,
    [compute_output_shape] stops on the utility's assertion as soon as the
    first spatial extent is known. *)
Lemma compute_output_shape_unknown_padding l batch h rest :
  padding l ∉ ["same"; "valid"; "full"; "causal"] →
  compute_output_shape l (batch :: Some h :: rest) = Raise AssertionError.
Proof.
  intros Hp. unfold compute_output_shape.
  rewrite py_index_0, py_index_1. cbn [mbind Result_bind].
  by rewrite conv_output_length_unknown_padding.
Qed.

(** C8, as the code has it: under valid-padding with positive strides,
    when the formula gives a non-positive extent on an axis,
    [compute_output_shape] raises nothing and returns that non-positive
    extent. *)
Theorem compute_output_shape_valid_nonpositive l batch h w rest :
  padding l = "valid" →
  0 < (strides l).1 → 0 < (strides l).2 →
  (h - ((kernel_size l).1 - 1) * (dilation_rate l).1 - 1) / (strides l).1 + 1 ≤ 0
  ∨ (w - ((kernel_size l).2 - 1) * (dilation_rate l).2 - 1) / (strides l).2 + 1 ≤ 0 →
  is_ok (compute_output_shape l (batch :: Some h :: Some w :: rest)) = true
  ∧ compute_output_shape l (batch :: Some h :: Some w :: rest)
    = Ok [batch;
          Some ((h - ((kernel_size l).1 - 1) * (dilation_rate l).1 - 1) / (strides l).1 + 1);
          Some ((w - ((kernel_size l).2 - 1) * (dilation_rate l).2 - 1) / (strides l).2 + 1);
          Some (filters l)].
Proof.
  intros Hp Hs1 Hs2 _.
  rewrite compute_output_shape_valid_formula by (done || lia). done.
Qed.

(** X23: the constructor raises the value error of the activation
    registry when the activation is a name the registry does not hold. *)
Lemma init_unknown_activation fmt (a : Args) s :
  arg_activation a = Some (ArgName s) →
  activation_by_name s = None →
  __init__ fmt a = Raise ValueError.
Proof.
  intros Ha Hs. unfold __init__. rewrite Ha. cbn. by rewrite Hs.
Qed.





Lemma concrete_shape_nonneg (s : list Z) :
  Forall (fun n => 0 ≤ n) s → concrete_shape (Some <$> s) = Ok s.
Proof.
  unfold concrete_shape. intros Hs.
  induction Hs as [|n s Hn _ IH]; [done|].
  cbn. destruct (Z.ltb_spec n 0); [lia|]. cbn.
  destruct (mapM _ _) as [s'|]; [|done]. cbn. by injection IH as ->.
Qed.

(** [build] step by step: the bias is registered first, then the kernel,
    whose third extent is the entry of the input shape at [channel_axis]. *)
Lemma build_allocates l input_shape c :
  py_index input_shape (channel_axis l) = Ok (Some c) →
  0 ≤ c → 0 ≤ filters l → 0 ≤ (kernel_size l).1 → 0 ≤ (kernel_size l).2 →
  let kshape := [(kernel_size l).1; (kernel_size l).2; c; filters l] in
  let b := mkWeight "conv_bias" (Some "float32") Zeros true (zeros [filters l]) in
  let k := mkWeight "kernel" None GlorotUniform true
             (mkTensor kshape (glorot_uniform_draw kshape)) in
  ∃ l', build l input_shape = Ok l'
    ∧ weights l' = weights l ++ [b; k]
    ∧ bias l' = Some b ∧ kernel l' = Some k ∧ built l' = true.
Proof.
  intros Hc ? ? ? ? kshape b k.
  assert (concrete_shape [Some (filters l)] = Ok [filters l]) as Hb.
  { apply (concrete_shape_nonneg [filters l]). repeat constructor; lia. }
  assert (concrete_shape [Some (kernel_size l).1; Some (kernel_size l).2;
                          Some c; Some (filters l)] = Ok kshape) as Hk.
  { apply (concrete_shape_nonneg kshape). repeat constructor; lia. }
  unfold build, add_weight. rewrite Hc. cbn [mbind Result_bind].
  rewrite Hb. cbn [mbind Result_bind].
  cbn [kernel_size filters set_bias with_weight].
  rewrite Hk. cbn [mbind Result_bind].
  eexists. split; [reflexivity|]. cbn.
  rewrite <- app_assoc. done.
Qed.


(** C10: under the channels-first setting the constructor sets
    [channel_axis] to 0, so on an input shape (batch, channels, height,
    width) [build] takes the batch size as the third extent of the
    kernel. *)
Theorem channels_first_build_reads_batch_axis (a : Args) l b c h w :
  __init__ channels_first a = Ok l →
  0 < b → 0 < filters l → 0 < (kernel_size l).1 → 0 < (kernel_size l).2 →
  channel_axis l = 0
  ∧ ∃ l' k, build l [Some b; Some c; Some h; Some w] = Ok l'
      ∧ kernel l' = Some k
      ∧ shape (var_value k) = [(kernel_size l).1; (kernel_size l).2; b; filters l].
Proof.
  intros Hi ? ? ? ?.
  assert (channel_axis l = 0) as Hax.
  { unfold __init__ in Hi.
    destruct (match default _ _ with ArgNone => _ | _ => _ end) as [act|]; [|done].
    cbn [mbind Result_bind] in Hi. by injection Hi as <-. }
  split; [done|].
  destruct (build_allocates l [Some b; Some c; Some h; Some w] b)
    as (l' & Hb & _ & _ & Hker & _); [by rewrite Hax | lia..|].
  eexists _, _. split; [exact Hb|]. split; [exact Hker|]. done.
Qed.

(** C9: [call] reads the kernel, the bias and the activation only: two
    layers that agree on these give the same result on every input,
    whatever their strides, padding and dilation rate; the convolution is
    always the backend's with strides (1, 1), valid-padding and dilation
    (1, 1). *)
Theorem call_ignores_strides_padding_dilation fmt l1 l2 x :
  kernel l1 = kernel l2 → bias l1 = bias l2 → activation l1 = activation l2 →
  call fmt l1 x = call fmt l2 x
  ∧ ∀ k b, kernel l1 = Some k → bias l1 = Some b →
      call fmt l2 x
      = (y ← conv2d fmt x (var_value k) (1, 1) "valid" (1, 1);
         y ← bias_add fmt y (var_value b);
         Ok (match activation l2 with Some f => f y | None => y end)).
Proof.
  intros Hk Hb Ha. split.
  - unfold call. by rewrite Hk, Hb, Ha.
  - intros k b Hk1 Hb1. unfold call. rewrite <- Hk, <- Hb, Hk1, Hb1.
    destruct (conv2d _ _ _ _ _ _) as [y|]; [|done]. cbn [mbind Result_bind].
    destruct (bias_add _ _ _) as [z|]; [|done]. cbn [mbind Result_bind].
    by destruct (activation l2).
Qed.

(** Shape of what [call] computes before the activation, channels last:
    each spatial extent shrinks by the kernel extent minus one, whatever
    the layer's strides, padding and dilation rate. *)
Lemma convolution_plus_bias_shape l x k b n h w c f :
  kernel l = Some k → bias l = Some b →
  shape x = [n; h; w; c] →
  shape (var_value k) = [(kernel_size l).1; (kernel_size l).2; c; f] →
  shape (var_value b) = [f] →
  (kernel_size l).1 ≤ h → (kernel_size l).2 ≤ w →
  ∃ y, convolution_plus_bias channels_last l x = Ok y
    ∧ shape y = [n; h - (kernel_size l).1 + 1; w - (kernel_size l).2 + 1; f].
Proof.
  intros Hk Hb Hx Hks Hbs Hh Hw.
  unfold convolution_plus_bias, conv2d, nn_convolution, windowed_output_size,
    preprocess_padding.
  rewrite Hk, Hb, Hx, Hks. decide_literals. cbn [mbind Result_bind fst snd].
  rewrite Z.eqb_refl. cbn [negb orb Z.leb Z.compare].
  rewrite !Z.mul_1_r.
  destruct (Z.ltb_spec h ((kernel_size l).1 - 1 + 1)); [lia|].
  destruct (Z.ltb_spec w ((kernel_size l).2 - 1 + 1)); [lia|].
  cbn [mbind Result_bind]. unfold bias_add. rewrite Hbs. cbn [shape].
  rewrite Z.eqb_refl. cbn [negb]. eexists. split; [reflexivity|].
  cbn [shape]. rewrite !Z.div_1_r. do 3 f_equal; [lia|]. f_equal. lia.
Qed.

(** X19: through [get_config] and back, for every layer, built or not:
    the layer [from_config] returns is unbuilt, has the attributes of the
    original, and so the same [compute_output_shape]. *)
Lemma from_config_get_config fmt l :
  ∃ l', from_config fmt (get_config l) = Ok l'
    ∧ filters l' = filters l ∧ kernel_size l' = kernel_size l
    ∧ strides l' = strides l ∧ padding l' = padding l
    ∧ activation l' = activation l ∧ dilation_rate l' = dilation_rate l
    ∧ batch_size l' = batch_size l
    ∧ bias l' = None ∧ kernel l' = None ∧ built l' = false
    ∧ ∀ input_shape,
        compute_output_shape l' input_shape = compute_output_shape l input_shape.
Proof.
  destruct l as [f b [kh kw_] k [sh sw] pd act [dh dw] bs ax bc ws bt].
  unfold from_config, get_config.
  repeat (rewrite lookup_insert_eq || rewrite lookup_insert_ne by done).
  cbn [kw as_int as_pair as_str mbind Result_bind filters kernel_size strides
    padding activation dilation_rate batch_size fst snd].
  unfold __init__. cbn [arg_filters arg_kernel_size arg_strides arg_padding
    arg_activation arg_dilation_rate arg_batch_size arg_kwargs default].
  destruct act as [g|];
    cbn [as_activation kw activations_get mbind Result_bind];
    (eexists; split; [reflexivity|]); cbn; repeat split; done.
Qed.

End properties.

(** ** The layer on concrete inputs *)

Lemma compute_output_shape_valid_scenario :
  ∃ l, __init__ channels_last (scenario "valid" (1, 1)) = Ok l
    ∧ compute_output_shape l image_shape
      = Ok [Some 1; Some 222; Some 222; Some 32].
Proof.
  eexists. split; [vm_compute; reflexivity|].
  lazymatch goal with
  | |- compute_output_shape ?l _ = _ =>
    exact (compute_output_shape_valid l (Some 1) 224 224 [Some 3] eq_refl
             eq_refl eq_refl eq_refl eq_refl eq_refl eq_refl eq_refl eq_refl)
  end.
Defined.

Lemma compute_output_shape_same_scenario :
  ∃ l, __init__ channels_last (scenario "same" (1, 1)) = Ok l
    ∧ compute_output_shape l image_shape
      = Ok [Some 1; Some 224; Some 224; Some 32].
Proof.
  eexists. split; [vm_compute; reflexivity|].
  lazymatch goal with
  | |- compute_output_shape ?l _ = _ =>
    exact (proj1 (compute_output_shape_same l (Some 1) 224 224 [Some 3] eq_refl
                    eq_refl eq_refl eq_refl eq_refl))
  end.
Defined.

(** The upper-case default of the constructor is not a name the length
    utility knows: with every argument left out, [compute_output_shape]
    stops on the utility's assertion. *)
Lemma compute_output_shape_default_padding :
  (l ← __init__ (R := Z) channels_last no_args; compute_output_shape l image_shape)
  = Raise AssertionError.
Proof. vm_compute. reflexivity. Qed.

(** C8, counterexample: a 3x3 kernel on a 2x2 input under valid-padding.
    The formula gives 0 on both axes and [compute_output_shape] returns the
    shape (1, 0, 0, 32) instead of raising. *)
Lemma compute_output_shape_kernel_exceeds_input :
  (2 - (3 - 1) * 1 - 1) / 1 + 1 ≤ 0
  ∧ (l ← __init__ channels_last (scenario "valid" (1, 1));
     compute_output_shape l [Some 1; Some 2; Some 2; Some 3])
    = Ok [Some 1; Some 0; Some 0; Some 32].
Proof. split; [vm_compute; discriminate | vm_compute; reflexivity]. Qed.

Lemma compute_output_shape_valid_nonpositive_witness :
  ∃ l, __init__ channels_last (scenario "valid" (1, 1)) = Ok l
    ∧ is_ok (compute_output_shape l [Some 1; Some 2; Some 2; Some 3]) = true
    ∧ compute_output_shape l [Some 1; Some 2; Some 2; Some 3]
      = Ok [Some 1; Some 0; Some 0; Some 32].
Proof.
  eexists. split; [vm_compute; reflexivity|].
  lazymatch goal with
  | |- is_ok (compute_output_shape ?l _) = _ ∧ _ =>
    refine (compute_output_shape_valid_nonpositive l (Some 1) 2 2 [Some 3]
              eq_refl eq_refl eq_refl (or_introl _))
  end.
  vm_compute. discriminate.
Defined.






Lemma channels_first_build_reads_batch_axis_witness :
  ∃ l, __init__ (R := Z) channels_first no_args = Ok l
    ∧ channel_axis l = 0
    ∧ ∃ l' k, build l [Some 8; Some 3; Some 224; Some 224] = Ok l'
        ∧ kernel l' = Some k
        ∧ shape (var_value k) = [3; 3; 8; 32].
Proof.
  eexists. split; [vm_compute; reflexivity|].
  lazymatch goal with
  | |- channel_axis ?l = _ ∧ _ =>
    exact (channels_first_build_reads_batch_axis no_args l 8 3 224 224 eq_refl
             eq_refl eq_refl eq_refl eq_refl)
  end.
Defined.

Lemma call_ignores_strides_padding_dilation_witness :
  ∃ l1 l2,
    built_layer channels_last (scenario "valid" (1, 1)) image_shape = Ok l1
    ∧ built_layer channels_last (scenario "same" (2, 2)) image_shape = Ok l2
    ∧ strides l1 ≠ strides l2 ∧ padding l1 ≠ padding l2
    ∧ call channels_last l1 (constant_input [1; 224; 224; 3] 1)
      = call channels_last l2 (constant_input [1; 224; 224; 3] 1).
Proof.
  eexists _, _. split; [vm_compute; reflexivity|].
  split; [vm_compute; reflexivity|].
  split; [cbn; congruence|]. split; [cbn; congruence|].
  lazymatch goal with
  | |- call _ ?l1 ?x = call _ ?l2 _ =>
    exact (proj1 (call_ignores_strides_padding_dilation channels_last l1 l2 x
                    eq_refl eq_refl eq_refl))
  end.
Defined.

(** C1, at a layer with strides (2, 2) on a (1, 224, 224, 3) input:
    [call] returns a tensor of shape (1, 222, 222, 32) while
    [compute_output_shape] announces (1, 111, 111, 32). *)
Theorem call_shape_differs_from_compute_output_shape :
  (l ← built_layer channels_last (scenario "valid" (2, 2)) image_shape;
   output_shape (call channels_last l (constant_input [1; 224; 224; 3] 1)))
  = Ok [Some 1; Some 222; Some 222; Some 32]
  ∧ (l ← built_layer channels_last (scenario "valid" (2, 2)) image_shape;
     compute_output_shape l image_shape)
    = Ok [Some 1; Some 111; Some 111; Some 32].
Proof. split; vm_compute; reflexivity. Qed.

(** The same under same-padding with strides (1, 1): [call] shrinks the
    image, [compute_output_shape] keeps its extents. *)
Lemma call_shape_differs_under_same_padding :
  (l ← built_layer channels_last (scenario "same" (1, 1)) image_shape;
   output_shape (call channels_last l (constant_input [1; 224; 224; 3] 1)))
  = Ok [Some 1; Some 222; Some 222; Some 32]
  ∧ (l ← built_layer channels_last (scenario "same" (1, 1)) image_shape;
     compute_output_shape l image_shape)
    = Ok [Some 1; Some 224; Some 224; Some 32].
Proof. split; vm_compute; reflexivity. Qed.

Lemma get_config_activation {R : Type} (l : Conv2D (R := R)) :
  get_config l !! "activation"
  = Some (match activation l with Some f => VCallable f | None => VNone end).
Proof.
  unfold get_config.
  by repeat (rewrite lookup_insert_eq || rewrite lookup_insert_ne by done).
Qed.

(** C4, at the layer constructed with every argument left out: the entry
    of [get_config] under ["activation"] is the function the constructor
    resolved, not the name ["relu"] it was given. *)
Theorem get_config_activation_is_function_object :
  (l ← __init__ (R := Z) channels_last no_args;
   Ok (get_config l !! "activation")) = Ok (Some (VCallable relu))
  ∧ VCallable relu ≠ VStr "relu".
Proof.
  split; [|discriminate].
  cbn [__init__ no_args arg_activation default activations_get mbind Result_bind].
  change (activation_by_name "relu") with (Some relu).
  cbn [mbind Result_bind]. by rewrite get_config_activation.
Qed.

(** * Further properties of the layer *)

Lemma py_index_last {A} (pre : list A) (x : A) : py_index (pre ++ [x]) (-1) = Ok x.
Proof.
  unfold py_index. cbn [Z.ltb Z.compare].
  rewrite length_app. cbn [length].
  replace (-1 + Z.of_nat (length pre + 1)) with (Z.of_nat (length pre)) by lia.
  destruct (Z.ltb_spec (Z.of_nat (length pre)) 0); [lia|].
  destruct (Z.leb_spec (Z.of_nat (length pre + 1)) (Z.of_nat (length pre))); [lia|].
  cbn [orb]. rewrite Nat2Z.id.
  by rewrite lookup_app_r, Nat.sub_diag.
Qed.

Lemma py_index_nil {A} (i : Z) : py_index (@nil A) i = Raise IndexError.
Proof.
  unfold py_index. cbn [length]. change (Z.of_nat 0) with 0. rewrite Z.add_0_r.
  destruct (i <? 0) eqn:Hi.
  - by rewrite Hi.
  - destruct (Z.ltb_spec i 0); [done|].
    destruct (Z.leb_spec 0 i); [done | lia].
Qed.

Lemma conv_output_length_zero_stride n k p d :
  p ∈ ["same"; "valid"; "full"; "causal"] →
  conv_utils.conv_output_length (Some n) k p 0 d = Raise ZeroDivisionError.
Proof.
  intros Hp. unfold conv_utils.conv_output_length, py_floordiv.
  by rewrite bool_decide_eq_true_2.
Qed.

Lemma div_succ_pos a s : 0 < s → (0 < a / s + 1 ↔ 0 ≤ a).
Proof.
  intros Hs. split; intros Ha.
  - destruct (Z.le_gt_cases 0 a) as [|Hlt]; [done|].
    assert (a / s < 0) by (apply Z.div_lt_upper_bound; lia). lia.
  - assert (0 ≤ a / s) by (apply Z.div_pos; lia). lia.
Qed.

Section more_properties.
Context {R : Type} `{!Backend R}.
Implicit Types (l : Conv2D (R := R)) (x : Tensor R).

(** X1: whatever [compute_output_shape] returns has four entries, the
    batch entry of the input shape first, unknown or not, and [filters]
    last. *)
Theorem compute_output_shape_batch_and_filters l input_shape r :
  compute_output_shape l input_shape = Ok r →
  ∃ b convX convY,
    r = [b; convX; convY; Some (filters l)] ∧ py_index input_shape 0 = Ok b.
Proof.
  unfold compute_output_shape. intros Hr.
  destruct (py_index input_shape 0) as [b|]; [|done].
  cbn [mbind Result_bind] in Hr.
  destruct (py_index input_shape 1) as [d1|]; [|done].
  cbn [mbind Result_bind] in Hr.
  destruct (conv_utils.conv_output_length d1 _ _ _ _) as [cx|]; [|done].
  cbn [mbind Result_bind] in Hr.
  destruct (py_index input_shape 2) as [d2|]; [|done].
  cbn [mbind Result_bind] in Hr.
  destruct (conv_utils.conv_output_length d2 _ _ _ _) as [cy|]; [|done].
  cbn [mbind Result_bind] in Hr. injection Hr as <-. by eexists _, _, _.
Qed.

(** X2: an input shape of fewer than three entries makes
    [compute_output_shape] raise; with fewer than two the exception is the
    index error of the tuple access. *)
Theorem compute_output_shape_short_input l input_shape :
  (length input_shape < 3)%nat →
  is_ok (compute_output_shape l input_shape) = false
  ∧ ((length input_shape < 2)%nat →
     compute_output_shape l input_shape = Raise IndexError).
Proof.
  intros Hlen. destruct input_shape as [|b [|d1 [|d2 rest]]]; cbn [length] in *;
    [| | |lia].
  - split; [done|]. intros _. unfold compute_output_shape.
    by rewrite py_index_nil.
  - split; [done|]. intros _. unfold compute_output_shape.
    by rewrite py_index_0.
  - split; [|lia]. unfold compute_output_shape.
    rewrite py_index_0, py_index_1. cbn [mbind Result_bind].
    by destruct (conv_utils.conv_output_length d1 _ _ _ _).
Qed.

(** X3: unknown spatial extents are passed through before the padding
    name or the stride is looked at, so they come back unknown for every
    configuration. *)
Theorem compute_output_shape_unknown_extents l batch rest :
  compute_output_shape l (batch :: None :: None :: rest)
  = Ok [batch; None; None; Some (filters l)].
Proof.
  unfold compute_output_shape.
  by rewrite py_index_0, py_index_1, py_index_2.
Qed.

(** X4: only the first three entries of the input shape are read; the
    channel entry and anything after it do not change the result. *)
Theorem compute_output_shape_ignores_channels l batch h w rest rest' :
  compute_output_shape l (batch :: h :: w :: rest)
  = compute_output_shape l (batch :: h :: w :: rest').
Proof.
  unfold compute_output_shape.
  by rewrite !py_index_0, !py_index_1, !py_index_2.
Qed.

(** X5: a stride of zero, which the constructor accepts, makes
    [compute_output_shape] raise the division error on a known extent. *)
Theorem compute_output_shape_zero_stride l batch h rest :
  padding l ∈ ["same"; "valid"; "full"; "causal"] →
  (strides l).1 = 0 →
  compute_output_shape l (batch :: Some h :: rest) = Raise ZeroDivisionError.
Proof.
  intros Hp Hs. unfold compute_output_shape.
  rewrite py_index_0, py_index_1, Hs. cbn [mbind Result_bind].
  by rewrite conv_output_length_zero_stride.
Qed.

(** X8: under valid-padding with positive strides the returned extent of
    an axis is positive exactly when the dilated kernel fits in the input
    extent. *)
Theorem compute_output_shape_valid_positive_iff_fits l batch h w rest :
  padding l = "valid" →
  0 < (strides l).1 → 0 < (strides l).2 →
  ∃ oh ow,
    compute_output_shape l (batch :: Some h :: Some w :: rest)
    = Ok [batch; Some oh; Some ow; Some (filters l)]
    ∧ (0 < oh ↔ ((kernel_size l).1 - 1) * (dilation_rate l).1 + 1 ≤ h)
    ∧ (0 < ow ↔ ((kernel_size l).2 - 1) * (dilation_rate l).2 + 1 ≤ w).
Proof.
  intros Hp Hs1 Hs2. eexists _, _.
  split; [apply compute_output_shape_valid_formula; (done || lia)|].
  rewrite !div_succ_pos by done. lia.
Qed.

(** X9: under valid-padding without dilation, a kernel as large as the
    input gives extent 1 on both axes, for every positive stride. *)
Theorem compute_output_shape_kernel_equals_input l batch h w rest :
  padding l = "valid" →
  kernel_size l = (h, w) → dilation_rate l = (1, 1) →
  0 < (strides l).1 → 0 < (strides l).2 →
  compute_output_shape l (batch :: Some h :: Some w :: rest)
  = Ok [batch; Some 1; Some 1; Some (filters l)].
Proof.
  intros Hp Hk Hd Hs1 Hs2.
  rewrite compute_output_shape_valid_formula by (done || lia).
  rewrite Hk, Hd. cbn [fst snd].
  replace (h - (h - 1) * 1 - 1) with 0 by lia.
  replace (w - (w - 1) * 1 - 1) with 0 by lia.
  by rewrite !Z.div_0_l by lia.
Qed.

(** X10: under same-padding with strides (1, 1) the spatial extents come
    back unchanged, whatever the kernel size and the dilation rate. *)
Theorem compute_output_shape_same_unit_stride l batch h w rest :
  padding l = "same" → strides l = (1, 1) →
  compute_output_shape l (batch :: Some h :: Some w :: rest)
  = Ok [batch; Some h; Some w; Some (filters l)].
Proof.
  intros Hp Hs. unfold compute_output_shape.
  rewrite py_index_0, py_index_1, py_index_2, Hp, Hs. cbn [mbind Result_bind fst snd].
  rewrite !conv_output_length_same by done.
  unfold ceil_div. rewrite !Z.div_1_r, !Z.opp_involutive. reflexivity.
Qed.

(** X11: two layers stacked, both with valid-padding, strides (1, 1) and no
    dilation: the shape the first announces is accepted by the second, and
    each spatial extent loses the two kernel extents minus two. *)
Theorem compute_output_shape_stacked l1 l2 batch h w rest :
  padding l1 = "valid" → strides l1 = (1, 1) → dilation_rate l1 = (1, 1) →
  padding l2 = "valid" → strides l2 = (1, 1) → dilation_rate l2 = (1, 1) →
  (s ← compute_output_shape l1 (batch :: Some h :: Some w :: rest);
   compute_output_shape l2 s)
  = Ok [batch;
        Some (h - ((kernel_size l1).1 - 1) - ((kernel_size l2).1 - 1));
        Some (w - ((kernel_size l1).2 - 1) - ((kernel_size l2).2 - 1));
        Some (filters l2)].
Proof.
  intros Hp1 Hs1 Hd1 Hp2 Hs2 Hd2.
  rewrite compute_output_shape_valid_formula by (done || by rewrite Hs1).
  cbn [mbind Result_bind].
  rewrite compute_output_shape_valid_formula by (done || by rewrite Hs2).
  rewrite Hs1, Hd1, Hs2, Hd2. cbn [fst snd].
  rewrite !Z.div_1_r, !Z.mul_1_r.
  repeat (f_equal; try lia).
Qed.

End more_properties.

Section lifecycle.
Context {R : Type} `{!Backend R}.
Implicit Types (l : Conv2D (R := R)) (x : Tensor R).

Lemma init_channel_axis fmt (a : Args) l :
  __init__ fmt a = Ok l →
  channel_axis l = match fmt with channels_first => 0 | channels_last => -1 end
  ∧ kernel l = None ∧ bias l = None ∧ weights l = [] ∧ built l = false
  ∧ base_config l = arg_kwargs a.
Proof.
  unfold __init__. intros Hi.
  destruct (match default _ _ with ArgNone => _ | _ => _ end) as [act|]; [|done].
  cbn [mbind Result_bind] in Hi. by injection Hi as <-.
Qed.

(** What a successful [build] has read and what it returns. *)
Lemma build_result l input_shape l' :
  build l input_shape = Ok l' →
  ∃ c,
    py_index input_shape (channel_axis l) = Ok (Some c)
    ∧ 0 ≤ c ∧ 0 ≤ filters l ∧ 0 ≤ (kernel_size l).1 ∧ 0 ≤ (kernel_size l).2
    ∧ let kshape := [(kernel_size l).1; (kernel_size l).2; c; filters l] in
      let b := mkWeight "conv_bias" (Some "float32") Zeros true (zeros [filters l]) in
      let k := mkWeight "kernel" None GlorotUniform true
                 (mkTensor kshape (glorot_uniform_draw kshape)) in
      weights l' = weights l ++ [b; k]
      ∧ bias l' = Some b ∧ kernel l' = Some k ∧ built l' = true.
Proof.
  intros Hb.
  assert (∃ c, py_index input_shape (channel_axis l) = Ok (Some c)
            ∧ 0 ≤ c ∧ 0 ≤ filters l ∧ 0 ≤ (kernel_size l).1 ∧ 0 ≤ (kernel_size l).2)
    as (c & Hc & ? & ? & ? & ?).
  { unfold build, add_weight in Hb.
    destruct (py_index input_shape (channel_axis l)) as [c|]; [|done].
    cbn [mbind Result_bind] in Hb.
    destruct (concrete_shape [Some (filters l)]) as [s1|] eqn:H1; [|done].
    cbn [mbind Result_bind kernel_size filters set_bias with_weight] in Hb.
    destruct (concrete_shape [_; _; c; _]) as [s2|] eqn:H2; [|done].
    unfold concrete_shape in H2. cbn in H2.
    destruct (Z.ltb_spec (kernel_size l).1 0); [done|]. cbn in H2.
    destruct (Z.ltb_spec (kernel_size l).2 0); [done|]. cbn in H2.
    destruct c as [c|]; [|done]. exists c.
    destruct (Z.ltb_spec c 0); [done|]. cbn in H2.
    destruct (Z.ltb_spec (filters l) 0); [done|]. done. }
  exists c. do 5 (split; [done|]).
  destruct (build_allocates l input_shape c) as (l'' & Hb' & Hw); [done..|].
  rewrite Hb in Hb'. by injection Hb' as <-.
Qed.

Lemma build_keeps_configuration l input_shape l' :
  build l input_shape = Ok l' →
  filters l' = filters l ∧ kernel_size l' = kernel_size l
  ∧ strides l' = strides l ∧ padding l' = padding l
  ∧ activation l' = activation l ∧ dilation_rate l' = dilation_rate l
  ∧ batch_size l' = batch_size l ∧ channel_axis l' = channel_axis l
  ∧ base_config l' = base_config l.
Proof.
  unfold build, add_weight. intros Hb.
  destruct (py_index input_shape _) as [c|]; [|done].
  cbn [mbind Result_bind] in Hb.
  destruct (concrete_shape [Some (filters l)]) as [s1|]; [|done].
  cbn [mbind Result_bind] in Hb.
  destruct (concrete_shape _) as [s2|]; [|done].
  cbn [mbind Result_bind] in Hb.
  by injection Hb as <-.
Qed.

(** X7: [build] changes the weights and the built flag only: every
    configuration attribute, and so [compute_output_shape], is the same
    before and after. *)
Theorem build_preserves_configuration l input_shape l' :
  build l input_shape = Ok l' →
  filters l' = filters l ∧ kernel_size l' = kernel_size l
  ∧ strides l' = strides l ∧ padding l' = padding l
  ∧ activation l' = activation l ∧ dilation_rate l' = dilation_rate l
  ∧ batch_size l' = batch_size l ∧ channel_axis l' = channel_axis l
  ∧ base_config l' = base_config l
  ∧ ∀ s, compute_output_shape l' s = compute_output_shape l s.
Proof.
  intros Hb.
  destruct (build_keeps_configuration _ _ _ Hb)
    as (Hf & Hks & Hst & Hpd & Hac & Hdr & Hbs & Hax & Hbc).
  do 9 (split; [done|]). intros s. unfold compute_output_shape.
  by rewrite Hf, Hks, Hst, Hpd, Hdr.
Qed.

(** X12: under the channels-last setting [build] takes the last entry of
    the input shape as the channel count and does not look at the rank:
    a shape of any length is accepted. *)
Theorem build_reads_last_entry (a : Args) l pre c :
  __init__ channels_last a = Ok l →
  0 ≤ c → 0 ≤ filters l → 0 ≤ (kernel_size l).1 → 0 ≤ (kernel_size l).2 →
  ∃ l' k, build l (pre ++ [Some c]) = Ok l'
    ∧ kernel l' = Some k
    ∧ shape (var_value k) = [(kernel_size l).1; (kernel_size l).2; c; filters l].
Proof.
  intros Hi ? ? ? ?. destruct (init_channel_axis _ _ _ Hi) as (Hax & _).
  destruct (build_allocates l (pre ++ [Some c]) c)
    as (l' & Hb & _ & _ & Hker & _); [| done..|].
  { rewrite Hax. apply py_index_last. }
  eexists _, _. split; [exact Hb|]. split; [exact Hker|]. done.
Qed.


(** X14: [build] on the empty shape raises the index error of the tuple
    access, whatever the layer. *)
Theorem build_empty_shape l : build l [] = Raise IndexError.
Proof.
  unfold build. by rewrite py_index_nil.
Qed.

(** X15: an unknown extent at the channel axis, such as the unknown batch
    size under the channels-first setting, makes [build] fail. *)
Theorem build_unknown_channel_extent l input_shape :
  py_index input_shape (channel_axis l) = Ok None →
  is_ok (build l input_shape) = false.
Proof.
  intros Hc. destruct (build l input_shape) as [l'|] eqn:Hb; [|done].
  destruct (build_result _ _ _ Hb) as (c & Hc' & _). congruence.
Qed.

(** X16: [call] does not build: on a layer as the constructor returns it,
    it raises. *)
Theorem call_unbuilt fmt (a : Args) l x :
  __init__ fmt a = Ok l → is_ok (call fmt l x) = false.
Proof.
  intros Hi. destruct (init_channel_axis _ _ _ Hi) as (_ & Hk & _).
  unfold call. by rewrite Hk.
Qed.

(** X17: under the channels-first setting a layer built on the shape
    (b, c, h, w) has a kernel for b input channels, so [call] refuses an
    input of that very shape whenever c is not a multiple of b. *)
Theorem channels_first_call_rejects_build_shape (a : Args) l l' x b c h w :
  __init__ channels_first a = Ok l →
  build l [Some b; Some c; Some h; Some w] = Ok l' →
  shape x = [b; c; h; w] → c mod b ≠ 0 →
  is_ok (call channels_first l' x) = false.
Proof.
  intros Hi Hb Hx Hne. destruct (init_channel_axis _ _ _ Hi) as (Hax & _).
  destruct (build_result _ _ _ Hb) as (c0 & Hc0 & _ & _ & _ & _ & _ & _ & Hk & _).
  rewrite Hax in Hc0. injection Hc0 as <-.
  unfold call, conv2d, nchw_to_nhwc, preprocess_padding, nn_convolution.
  rewrite Hk, Hx. decide_literals. cbn [mbind Result_bind var_value shape].
  destruct (Z.eqb_spec c b) as [->|]; [|done].
  destruct (Z.eq_dec b 0) as [->|]; [done|]. by rewrite Z.mod_same in Hne.
Qed.

Lemma call_activation_of_convolution fmt l x :
  call fmt l x
  = (y ← convolution_plus_bias fmt l x;
     Ok (match activation l with Some f => f y | None => y end)).
Proof.
  unfold call, convolution_plus_bias.
  destruct (kernel l) as [k|]; [|done].
  destruct (conv2d _ _ _ _ _ _) as [y|]; [|done]. cbn [mbind Result_bind].
  destruct (bias l) as [b|]; [|done].
  destruct (bias_add _ _ _) as [z|]; [|done]. cbn [mbind Result_bind].
  by destruct (activation l).
Qed.

(** X18: a layer whose strides, padding and dilation rate are those the
    backend uses anyway (strides (1, 1), valid-padding, no dilation), built
    on the shape of its input under the channels-last setting, with a kernel
    that fits and an activation that keeps shapes: [call] returns a tensor of
    the shape [compute_output_shape] announces. *)
Theorem call_shape_agrees_at_backend_defaults (a : Args) l l' x n h w c :
  __init__ channels_last a = Ok l →
  build l [Some n; Some h; Some w; Some c] = Ok l' →
  shape x = [n; h; w; c] →
  strides l = (1, 1) → padding l = "valid" → dilation_rate l = (1, 1) →
  (kernel_size l).1 ≤ h → (kernel_size l).2 ≤ w →
  (∀ f y, activation l = Some f → shape (f y) = shape y) →
  output_shape (call channels_last l' x)
  = compute_output_shape l' [Some n; Some h; Some w; Some c]
  ∧ output_shape (call channels_last l' x)
    = Ok [Some n; Some (h - (kernel_size l).1 + 1);
          Some (w - (kernel_size l).2 + 1); Some (filters l)].
Proof.
  intros Hi Hb Hx Hs Hp Hd Hh Hw Hact.
  destruct (init_channel_axis _ _ _ Hi) as (Hax & _).
  destruct (build_keeps_configuration _ _ _ Hb)
    as (Hf & Hks & Hst & Hpd & Hac & Hdr & _ & _ & _).
  destruct (build_result _ _ _ Hb) as (c0 & Hc0 & _ & _ & _ & _ & _ & Hbias & Hker & _).
  rewrite Hax in Hc0. injection Hc0 as <-.
  assert (output_shape (call channels_last l' x)
          = Ok [Some n; Some (h - (kernel_size l).1 + 1);
                Some (w - (kernel_size l).2 + 1); Some (filters l)]) as Hcall.
  { destruct (convolution_plus_bias_shape l' x _ _ n h w c (filters l) Hker Hbias Hx)
      as (y & Hy & Hshape); [by rewrite Hks | done | by rewrite Hks..|].
    rewrite call_activation_of_convolution, Hy. cbn [mbind Result_bind].
    unfold output_shape. cbn [mbind Result_bind]. rewrite Hks in Hshape.
    rewrite Hac. destruct (activation l) as [f|] eqn:Ha.
    - by rewrite (Hact f y eq_refl), Hshape.
    - by rewrite Hshape. }
  split; [|exact Hcall]. rewrite Hcall.
  rewrite compute_output_shape_valid_formula by (congruence || (rewrite Hst, Hs; done)).
  rewrite Hf, Hks, Hst, Hdr, Hs, Hd. cbn [fst snd]. rewrite !Z.div_1_r, !Z.mul_1_r.
  repeat (f_equal; try lia).
Qed.

End lifecycle.

Section configuration.
Context {R : Type} `{!Backend R}.
Implicit Types (l : Conv2D (R := R)).

(** X21: [get_config] holds an entry for each of the seven constructor
    keywords, and under every other key what the base configuration
    holds. *)
Theorem get_config_entries l k :
  (k ∈ constructor_keywords → is_Some (get_config l !! k))
  ∧ (k ∉ constructor_keywords → get_config l !! k = base_config l !! k).
Proof.
  unfold get_config, constructor_keywords.
  rewrite list_elem_of_In. cbn [In]. split; intros Hk.
  - repeat (rewrite lookup_insert; case_decide; [by eexists|]).
    exfalso. intuition congruence.
  - repeat (rewrite lookup_insert_ne by (intros <-; apply Hk; by auto 10)). done.
Qed.

Lemma delete_keywords_get_config l :
  (∀ k, k ∈ constructor_keywords → base_config l !! k = None) →
  foldr delete (get_config l) (constructor_keywords) = base_config l.
Proof.
  intros Hfree. apply map_eq. intros k.
  unfold constructor_keywords, get_config. cbn [foldr].
  repeat (rewrite lookup_delete; case_decide;
          [subst k; symmetry; apply Hfree, list_elem_of_In;
           unfold constructor_keywords; cbn [In]; by auto 10|]).
  repeat (rewrite lookup_insert_ne by done). done.
Qed.

(** X20: for a layer as the constructor returns it, [from_config] on its
    [get_config] gives the very same layer back. *)
Theorem from_config_get_config_init fmt (a : Args) l :
  __init__ fmt a = Ok l →
  (∀ k, k ∈ constructor_keywords → arg_kwargs a !! k = None) →
  from_config fmt (get_config l) = Ok l.
Proof.
  intros Hi Hfree.
  destruct (init_channel_axis _ _ _ Hi) as (Hax & Hk & Hb & Hw & Hbt & Hbase).
  unfold from_config.
  rewrite delete_keywords_get_config by (by rewrite Hbase).
  unfold get_config.
  repeat (rewrite lookup_insert_eq || rewrite lookup_insert_ne by done).
  destruct l as [f b [kh kw_] k [sh sw] pd act [dh dw] bs ax bc ws bt].
  cbn [filters bias kernel_size kernel strides padding activation dilation_rate
    batch_size channel_axis base_config weights built fst snd] in *.
  subst ax b k ws bt.
  cbn [kw as_int as_pair as_str mbind Result_bind].
  unfold __init__. cbn [arg_filters arg_kernel_size arg_strides arg_padding
    arg_activation arg_dilation_rate arg_batch_size arg_kwargs default].
  by destruct act as [g|].
Qed.

(** X22: [from_config] on the empty dictionary is the constructor with
    every argument left out. *)
Theorem from_config_empty fmt :
  from_config (R := R) fmt ∅ = __init__ fmt no_args.
Proof.
  unfold from_config. rewrite !lookup_empty.
  cbn [kw mbind Result_bind constructor_keywords foldr].
  by rewrite !delete_empty.
Qed.

End configuration.

(** ** The further properties on concrete inputs *)

Lemma compute_output_shape_batch_and_filters_witness :
  ∃ l, __init__ channels_last (scenario "valid" (1, 1)) = Ok l
    ∧ ∃ b convX convY,
        [Some 1; Some 222; Some 222; Some 32] = [b; convX; convY; Some (filters l)]
        ∧ py_index image_shape 0 = Ok b.
Proof.
  eexists. split; [vm_compute; reflexivity|].
  lazymatch goal with
  | |- ∃ b convX convY, _ = [b; convX; convY; Some (filters ?l)] ∧ _ =>
    exact (compute_output_shape_batch_and_filters l image_shape _ eq_refl)
  end.
Defined.

Lemma compute_output_shape_short_input_witness :
  ∃ l, __init__ channels_last (scenario "valid" (1, 1)) = Ok l
    ∧ is_ok (compute_output_shape l [Some 1; Some 224]) = false
    ∧ ((length [Some 1; Some 224] < 2)%nat →
       compute_output_shape l [Some 1; Some 224] = Raise IndexError).
Proof.
  eexists. split; [vm_compute; reflexivity|].
  lazymatch goal with
  | |- is_ok (compute_output_shape ?l _) = _ ∧ _ =>
    apply (compute_output_shape_short_input l [Some 1; Some 224])
  end.
  cbn [length]. lia.
Defined.

Lemma compute_output_shape_zero_stride_witness :
  ∃ l, __init__ channels_last (scenario "valid" (0, 1)) = Ok l
    ∧ compute_output_shape l image_shape = Raise ZeroDivisionError.
Proof.
  eexists. split; [vm_compute; reflexivity|].
  lazymatch goal with
  | |- compute_output_shape ?l _ = _ =>
    refine (compute_output_shape_zero_stride l (Some 1) 224 [Some 224; Some 3]
              _ eq_refl)
  end.
  apply list_elem_of_In. cbn. auto.
Defined.

Lemma compute_output_shape_unknown_padding_witness :
  ∃ l, __init__ (R := Z) channels_last no_args = Ok l
    ∧ padding l = "VALID"
    ∧ compute_output_shape l image_shape = Raise AssertionError.
Proof.
  eexists. split; [vm_compute; reflexivity|]. split; [reflexivity|].
  lazymatch goal with
  | |- compute_output_shape ?l _ = _ =>
    refine (compute_output_shape_unknown_padding l (Some 1) 224
              [Some 224; Some 3] _)
  end.
  intros Hin. apply list_elem_of_In in Hin. cbn in Hin.
  intuition discriminate.
Defined.

Lemma build_preserves_configuration_witness :
  ∃ l l', __init__ (R := Z) channels_last no_args = Ok l
    ∧ build l image_shape = Ok l'
    ∧ filters l' = filters l ∧ kernel_size l' = kernel_size l
    ∧ strides l' = strides l ∧ padding l' = padding l
    ∧ activation l' = activation l ∧ dilation_rate l' = dilation_rate l
    ∧ batch_size l' = batch_size l ∧ channel_axis l' = channel_axis l
    ∧ base_config l' = base_config l
    ∧ ∀ s, compute_output_shape l' s = compute_output_shape l s.
Proof.
  eexists _, _. split; [vm_compute; reflexivity|].
  split; [vm_compute; reflexivity|].
  lazymatch goal with
  | |- filters ?l' = filters ?l ∧ _ =>
    exact (build_preserves_configuration l image_shape l' eq_refl)
  end.
Defined.

Lemma compute_output_shape_valid_positive_iff_fits_witness :
  ∃ l, __init__ channels_last (scenario "valid" (2, 2)) = Ok l
    ∧ ∃ oh ow,
        compute_output_shape l [Some 1; Some 2; Some 7; Some 3]
        = Ok [Some 1; Some oh; Some ow; Some 32]
        ∧ (0 < oh ↔ (3 - 1) * 1 + 1 ≤ 2) ∧ (0 < ow ↔ (3 - 1) * 1 + 1 ≤ 7).
Proof.
  eexists. split; [vm_compute; reflexivity|].
  lazymatch goal with
  | |- ∃ oh ow, compute_output_shape ?l _ = _ ∧ _ =>
    exact (compute_output_shape_valid_positive_iff_fits l (Some 1) 2 7 [Some 3]
             eq_refl eq_refl eq_refl)
  end.
Defined.

Lemma compute_output_shape_kernel_equals_input_witness :
  ∃ l, __init__ channels_last (scenario "valid" (2, 2)) = Ok l
    ∧ compute_output_shape l [Some 1; Some 3; Some 3; Some 3]
      = Ok [Some 1; Some 1; Some 1; Some 32].
Proof.
  eexists. split; [vm_compute; reflexivity|].
  lazymatch goal with
  | |- compute_output_shape ?l _ = _ =>
    exact (compute_output_shape_kernel_equals_input l (Some 1) 3 3 [Some 3]
             eq_refl eq_refl eq_refl eq_refl eq_refl)
  end.
Defined.

Lemma compute_output_shape_same_unit_stride_witness :
  ∃ l, __init__ channels_last (scenario "same" (1, 1)) = Ok l
    ∧ compute_output_shape l image_shape
      = Ok [Some 1; Some 224; Some 224; Some 32].
Proof.
  eexists. split; [vm_compute; reflexivity|].
  lazymatch goal with
  | |- compute_output_shape ?l _ = _ =>
    exact (compute_output_shape_same_unit_stride l (Some 1) 224 224 [Some 3]
             eq_refl eq_refl)
  end.
Defined.

Lemma compute_output_shape_stacked_witness :
  ∃ l, __init__ channels_last (scenario "valid" (1, 1)) = Ok l
    ∧ (s ← compute_output_shape l image_shape; compute_output_shape l s)
      = Ok [Some 1; Some 220; Some 220; Some 32].
Proof.
  eexists. split; [vm_compute; reflexivity|].
  lazymatch goal with
  | |- (_ ← compute_output_shape ?l _; _) = _ =>
    exact (compute_output_shape_stacked l l (Some 1) 224 224 [Some 3]
             eq_refl eq_refl eq_refl eq_refl eq_refl eq_refl)
  end.
Defined.

Lemma build_reads_last_entry_witness :
  ∃ l, __init__ (R := Z) channels_last no_args = Ok l
    ∧ ∃ l' k, build l [Some 7; Some 5] = Ok l'
        ∧ kernel l' = Some k
        ∧ shape (var_value k) = [3; 3; 5; 32].
Proof.
  eexists. split; [vm_compute; reflexivity|].
  lazymatch goal with
  | |- ∃ l' k, build ?l _ = _ ∧ _ =>
    exact (build_reads_last_entry no_args l [Some 7] 5 eq_refl
             ltac:(discriminate) ltac:(discriminate) ltac:(discriminate)
             ltac:(discriminate))
  end.
Defined.


Lemma build_unknown_channel_extent_witness :
  ∃ l, __init__ (R := Z) channels_first no_args = Ok l
    ∧ is_ok (build l [None; Some 3; Some 224; Some 224]) = false.
Proof.
  eexists. split; [vm_compute; reflexivity|].
  lazymatch goal with
  | |- is_ok (build ?l _) = _ =>
    exact (build_unknown_channel_extent l [None; Some 3; Some 224; Some 224] eq_refl)
  end.
Defined.

Lemma call_unbuilt_witness :
  ∃ l, __init__ (R := Z) channels_last no_args = Ok l
    ∧ is_ok (call channels_last l (constant_input [1; 224; 224; 3] 1)) = false.
Proof.
  eexists. split; [vm_compute; reflexivity|].
  lazymatch goal with
  | |- is_ok (call _ ?l ?x) = _ =>
    exact (call_unbuilt channels_last no_args l x eq_refl)
  end.
Defined.

Lemma channels_first_call_rejects_build_shape_witness :
  ∃ l l', __init__ (R := Z) channels_first no_args = Ok l
    ∧ build l [Some 8; Some 3; Some 224; Some 224] = Ok l'
    ∧ is_ok (call channels_first l' (constant_input [8; 3; 224; 224] 1)) = false.
Proof.
  eexists _, _. split; [vm_compute; reflexivity|].
  split; [vm_compute; reflexivity|].
  lazymatch goal with
  | |- is_ok (call _ ?l' ?x) = _ =>
    refine (channels_first_call_rejects_build_shape no_args _ l' x 8 3 224 224
              eq_refl eq_refl eq_refl _)
  end.
  discriminate.
Defined.

Lemma call_shape_agrees_at_backend_defaults_witness :
  ∃ l l', __init__ channels_last (scenario "valid" (1, 1)) = Ok l
    ∧ build l image_shape = Ok l'
    ∧ output_shape (call channels_last l' (constant_input [1; 224; 224; 3] 1))
      = compute_output_shape l' image_shape
    ∧ output_shape (call channels_last l' (constant_input [1; 224; 224; 3] 1))
      = Ok [Some 1; Some 222; Some 222; Some 32].
Proof.
  eexists _, _. split; [vm_compute; reflexivity|].
  split; [vm_compute; reflexivity|].
  lazymatch goal with
  | |- output_shape (call _ ?l' ?x) = _ ∧ _ =>
    refine (call_shape_agrees_at_backend_defaults (scenario "valid" (1, 1)) _ l' x
              1 224 224 3 eq_refl eq_refl eq_refl eq_refl eq_refl eq_refl _ _ _)
  end.
  - discriminate.
  - discriminate.
  - intros f y [= <-]. reflexivity.
Defined.

Lemma from_config_get_config_init_witness :
  ∃ l, __init__ (R := Z) channels_last no_args = Ok l
    ∧ from_config channels_last (get_config l) = Ok l.
Proof.
  eexists. split; [vm_compute; reflexivity|].
  lazymatch goal with
  | |- from_config _ (get_config ?l) = _ =>
    exact (from_config_get_config_init channels_last no_args l eq_refl
             (fun k _ => lookup_empty k))
  end.
Defined.

Lemma init_unknown_activation_witness :
  __init__ channels_last (pointwise_args (Some (ArgName "no_such_activation")))
  = Raise ValueError.
Proof.
  exact (init_unknown_activation channels_last
           (pointwise_args (Some (ArgName "no_such_activation")))
           "no_such_activation" eq_refl eq_refl).
Defined.
